(** * Verification of [implementors/core/marker/trait.Freeze.js]

    The file is a rustdoc-generated script.  It is one immediately invoked
    function that

    - declares a local [implementors] object and fills it, one assignment
      per crate, with an array literal of implementor records (lines 1-8);
    - hands the object to the documentation viewer (line 9): it calls
      [window.register_implementors] when that property is truthy and
      stores the object in [window.pending_implementors] otherwise.

    The embedding below is shallow.  JavaScript values are an inductive
    type, objects used as maps are [gmap string value], the script is a
    computation in a state-and-exception monad over the local variable, the
    own properties of [window] and a trace of the effects the script has on
    the outside.

    Modelling conventions:
    - the properties of [window] are plain writable data properties (no
      accessors, no proxies), so reading one has no effect;
    - numbers are the integer-valued ones and [NaN]; only their truthiness
      is ever observed;
    - a callable host object is [VFunction f]; what calling it does to
      [window], whether it throws, and what it does to an object it is
      passed, is given by a parameter [host] of the development;
    - objects are passed by reference: the state holds the contents of the
      one object the variable [implementors] refers to, and a call that
      receives the object leaves those contents as the callee chose. *)

From stdpp Require Import gmap strings list fin_maps.
From Stdlib Require Import ZArith.

(** ** JavaScript values *)

#[warnings="-register-all"]
Inductive value : Type :=
| VUndefined
| VNull
| VBool (b : bool)
| VNumber (n : Z)
| VNaN
| VString (s : string)
| VArray (elems : list value)
| VObject (props : gmap string value)
| VFunction (f : nat).

(** ECMAScript [ToBoolean], the test an [if] applies to its condition. *)
Definition to_boolean (v : value) : bool :=
  match v with
  | VUndefined | VNull | VNaN => false
  | VBool b => b
  | VNumber n => negb (n =? 0)%Z
  | VString s => negb (String.eqb s "")
  | VArray _ | VObject _ | VFunction _ => true
  end.

(** Property read [o.k] (or [o[k]]): [undefined] when [k] is absent. *)
Definition get (o : gmap string value) (k : string) : value :=
  default VUndefined (o !! k).

(** An object literal [{k1: v1, ..., kn: vn}]: the properties are defined
    from left to right, a later one replacing an earlier one of that name. *)
Definition object_literal (l : list (string * value)) : gmap string value :=
  foldl (λ o kv, <[kv.1 := kv.2]> o) ∅ l.

(** The double-quote character (code 34), which the source's string
    literals write with a backslash escape. *)
Definition DQ : string := String (Ascii.ascii_of_nat 34) EmptyString.

(** ** The array literals of lines 2-8 *)

(** Line 2: the array literal assigned to [implementors['actix_files']]. *)
Definition implementors_actix_files : value :=
  VArray [
    VObject (object_literal [("text", VString "impl Freeze for Directory"); ("synthetic", VBool true); ("types", VArray [])]);
    VObject (object_literal [("text", VString "impl Freeze for Files"); ("synthetic", VBool true); ("types", VArray [])]);
    VObject (object_literal [("text", VString "impl Freeze for NamedFile"); ("synthetic", VBool true); ("types", VArray [])]);
    VObject (object_literal [("text", VString "impl Freeze for HttpRange"); ("synthetic", VBool true); ("types", VArray [])]);
    VObject (object_literal [("text", VString "impl Freeze for FilesService"); ("synthetic", VBool true); ("types", VArray [])])
  ].

(** Line 3: the array literal assigned to [implementors['actix_http']]. *)
Definition implementors_actix_http : value :=
  VArray [
    VObject (object_literal [("text", VString ("impl&lt;T, S, X, U&gt; Freeze for HttpServiceBuilder&lt;T, S, X, U&gt; <span class=" +:+ DQ +:+ "where fmt-newline" +:+ DQ +:+ ">where<br>&nbsp;&nbsp;&nbsp;&nbsp;U: Freeze,<br>&nbsp;&nbsp;&nbsp;&nbsp;X: Freeze,&nbsp;</span>")); ("synthetic", VBool true); ("types", VArray [])]);
    VObject (object_literal [("text", VString "impl Freeze for ServiceConfig"); ("synthetic", VBool true); ("types", VArray [])]);
    VObject (object_literal [("text", VString "impl Freeze for Extensions"); ("synthetic", VBool true); ("types", VArray [])]);
    VObject (object_literal [("text", VString "impl&lt;T&gt; Freeze for Message&lt;T&gt;"); ("synthetic", VBool true); ("types", VArray [])]);
    VObject (object_literal [("text", VString "impl !Freeze for RequestHead"); ("synthetic", VBool true); ("types", VArray [])]);
    VObject (object_literal [("text", VString "impl !Freeze for ResponseHead"); ("synthetic", VBool true); ("types", VArray [])]);
    VObject (object_literal [("text", VString ("impl&lt;P&gt; Freeze for Request&lt;P&gt; <span class=" +:+ DQ +:+ "where fmt-newline" +:+ DQ +:+ ">where<br>&nbsp;&nbsp;&nbsp;&nbsp;P: Freeze,&nbsp;</span>")); ("synthetic", VBool true); ("types", VArray [])]);
    VObject (object_literal [("text", VString "impl&lt;B&nbsp;=&nbsp;Body&gt; !Freeze for Response&lt;B&gt;"); ("synthetic", VBool true); ("types", VArray [])]);
    VObject (object_literal [("text", VString "impl Freeze for ResponseBuilder"); ("synthetic", VBool true); ("types", VArray [])]);
    VObject (object_literal [("text", VString ("impl&lt;T, S, B, X, U&gt; Freeze for HttpService&lt;T, S, B, X, U&gt; <span class=" +:+ DQ +:+ "where fmt-newline" +:+ DQ +:+ ">where<br>&nbsp;&nbsp;&nbsp;&nbsp;S: Freeze,<br>&nbsp;&nbsp;&nbsp;&nbsp;U: Freeze,<br>&nbsp;&nbsp;&nbsp;&nbsp;X: Freeze,&nbsp;</span>")); ("synthetic", VBool true); ("types", VArray [])]);
    VObject (object_literal [("text", VString "impl Freeze for KeepAlive"); ("synthetic", VBool true); ("types", VArray [])]);
    VObject (object_literal [("text", VString "impl !Freeze for RequestHeadType"); ("synthetic", VBool true); ("types", VArray [])]);
    VObject (object_literal [("text", VString ("impl&lt;S&gt; Freeze for Payload&lt;S&gt; <span class=" +:+ DQ +:+ "where fmt-newline" +:+ DQ +:+ ">where<br>&nbsp;&nbsp;&nbsp;&nbsp;S: Freeze,&nbsp;</span>")); ("synthetic", VBool true); ("types", VArray [])]);
    VObject (object_literal [("text", VString "impl Freeze for Protocol"); ("synthetic", VBool true); ("types", VArray [])]);
    VObject (object_literal [("text", VString ("impl&lt;S, E&gt; Freeze for BodyStream&lt;S, E&gt; <span class=" +:+ DQ +:+ "where fmt-newline" +:+ DQ +:+ ">where<br>&nbsp;&nbsp;&nbsp;&nbsp;S: Freeze,&nbsp;</span>")); ("synthetic", VBool true); ("types", VArray [])]);
    VObject (object_literal [("text", VString ("impl&lt;S&gt; Freeze for SizedStream&lt;S&gt; <span class=" +:+ DQ +:+ "where fmt-newline" +:+ DQ +:+ ">where<br>&nbsp;&nbsp;&nbsp;&nbsp;S: Freeze,&nbsp;</span>")); ("synthetic", VBool true); ("types", VArray [])]);
    VObject (object_literal [("text", VString "impl Freeze for BodySize"); ("synthetic", VBool true); ("types", VArray [])]);
    VObject (object_literal [("text", VString "impl&lt;B&gt; !Freeze for ResponseBody&lt;B&gt;"); ("synthetic", VBool true); ("types", VArray [])]);
    VObject (object_literal [("text", VString "impl !Freeze for Body"); ("synthetic", VBool true); ("types", VArray [])]);
    VObject (object_literal [("text", VString ("impl&lt;T, U&gt; Freeze for Connector&lt;T, U&gt; <span class=" +:+ DQ +:+ "where fmt-newline" +:+ DQ +:+ ">where<br>&nbsp;&nbsp;&nbsp;&nbsp;T: Freeze,&nbsp;</span>")); ("synthetic", VBool true); ("types", VArray [])]);
    VObject (object_literal [("text", VString "impl !Freeze for Connect"); ("synthetic", VBool true); ("types", VArray [])]);
    VObject (object_literal [("text", VString "impl Freeze for ConnectError"); ("synthetic", VBool true); ("types", VArray [])]);
    VObject (object_literal [("text", VString "impl Freeze for FreezeRequestError"); ("synthetic", VBool true); ("types", VArray [])]);
    VObject (object_literal [("text", VString "impl Freeze for InvalidUrl"); ("synthetic", VBool true); ("types", VArray [])]);
    VObject (object_literal [("text", VString "impl Freeze for SendRequestError"); ("synthetic", VBool true); ("types", VArray [])]);
    VObject (object_literal [("text", VString "impl Freeze for Protocol"); ("synthetic", VBool true); ("types", VArray [])]);
    VObject (object_literal [("text", VString ("impl&lt;S&gt; Freeze for Decoder&lt;S&gt; <span class=" +:+ DQ +:+ "where fmt-newline" +:+ DQ +:+ ">where<br>&nbsp;&nbsp;&nbsp;&nbsp;S: Freeze,&nbsp;</span>")); ("synthetic", VBool true); ("types", VArray [])]);
    VObject (object_literal [("text", VString "impl&lt;B&gt; !Freeze for Encoder&lt;B&gt;"); ("synthetic", VBool true); ("types", VArray [])]);
    VObject (object_literal [("text", VString "impl Freeze for ExtendedValue"); ("synthetic", VBool true); ("types", VArray [])]);
    VObject (object_literal [("text", VString "impl Freeze for ContentEncoding"); ("synthetic", VBool true); ("types", VArray [])]);
    VObject (object_literal [("text", VString "impl Freeze for AcceptCharset"); ("synthetic", VBool true); ("types", VArray [])]);
    VObject (object_literal [("text", VString "impl Freeze for Accept"); ("synthetic", VBool true); ("types", VArray [])]);
    VObject (object_literal [("text", VString "impl Freeze for AcceptLanguage"); ("synthetic", VBool true); ("types", VArray [])]);
    VObject (object_literal [("text", VString "impl Freeze for Allow"); ("synthetic", VBool true); ("types", VArray [])]);
    VObject (object_literal [("text", VString "impl Freeze for CacheControl"); ("synthetic", VBool true); ("types", VArray [])]);
    VObject (object_literal [("text", VString "impl Freeze for CacheDirective"); ("synthetic", VBool true); ("types", VArray [])]);
    VObject (object_literal [("text", VString "impl Freeze for ContentDisposition"); ("synthetic", VBool true); ("types", VArray [])]);
    VObject (object_literal [("text", VString "impl Freeze for DispositionType"); ("synthetic", VBool true); ("types", VArray [])]);
    VObject (object_literal [("text", VString "impl Freeze for DispositionParam"); ("synthetic", VBool true); ("types", VArray [])]);
    VObject (object_literal [("text", VString "impl Freeze for ContentLanguage"); ("synthetic", VBool true); ("types", VArray [])]);
    VObject (object_literal [("text", VString "impl Freeze for ContentRange"); ("synthetic", VBool true); ("types", VArray [])]);
    VObject (object_literal [("text", VString "impl Freeze for ContentRangeSpec"); ("synthetic", VBool true); ("types", VArray [])]);
    VObject (object_literal [("text", VString "impl Freeze for ContentType"); ("synthetic", VBool true); ("types", VArray [])]);
    VObject (object_literal [("text", VString "impl Freeze for Date"); ("synthetic", VBool true); ("types", VArray [])]);
    VObject (object_literal [("text", VString "impl Freeze for ETag"); ("synthetic", VBool true); ("types", VArray [])]);
    VObject (object_literal [("text", VString "impl Freeze for Expires"); ("synthetic", VBool true); ("types", VArray [])]);
    VObject (object_literal [("text", VString "impl Freeze for IfMatch"); ("synthetic", VBool true); ("types", VArray [])]);
    VObject (object_literal [("text", VString "impl Freeze for IfModifiedSince"); ("synthetic", VBool true); ("types", VArray [])]);
    VObject (object_literal [("text", VString "impl Freeze for IfNoneMatch"); ("synthetic", VBool true); ("types", VArray [])]);
    VObject (object_literal [("text", VString "impl Freeze for IfRange"); ("synthetic", VBool true); ("types", VArray [])]);
    VObject (object_literal [("text", VString "impl Freeze for IfUnmodifiedSince"); ("synthetic", VBool true); ("types", VArray [])]);
    VObject (object_literal [("text", VString "impl Freeze for LastModified"); ("synthetic", VBool true); ("types", VArray [])]);
    VObject (object_literal [("text", VString "impl Freeze for HeaderMap"); ("synthetic", VBool true); ("types", VArray [])]);
    VObject (object_literal [("text", VString "impl Freeze for ConnectionType"); ("synthetic", VBool true); ("types", VArray [])]);
    VObject (object_literal [("text", VString "impl Freeze for Error"); ("synthetic", VBool true); ("types", VArray [])]);
    VObject (object_literal [("text", VString "impl&lt;T&gt; !Freeze for InternalError&lt;T&gt;"); ("synthetic", VBool true); ("types", VArray [])]);
    VObject (object_literal [("text", VString "impl Freeze for ParseError"); ("synthetic", VBool true); ("types", VArray [])]);
    VObject (object_literal [("text", VString "impl Freeze for PayloadError"); ("synthetic", VBool true); ("types", VArray [])]);
    VObject (object_literal [("text", VString "impl Freeze for DispatchError"); ("synthetic", VBool true); ("types", VArray [])]);
    VObject (object_literal [("text", VString "impl Freeze for ContentTypeError"); ("synthetic", VBool true); ("types", VArray [])]);
    VObject (object_literal [("text", VString "impl Freeze for ClientCodec"); ("synthetic", VBool true); ("types", VArray [])]);
    VObject (object_literal [("text", VString "impl Freeze for ClientPayloadCodec"); ("synthetic", VBool true); ("types", VArray [])]);
    VObject (object_literal [("text", VString "impl Freeze for Codec"); ("synthetic", VBool true); ("types", VArray [])]);
    VObject (object_literal [("text", VString "impl&lt;T, S, B, X, U&gt; !Freeze for Dispatcher&lt;T, S, B, X, U&gt;"); ("synthetic", VBool true); ("types", VArray [])]);
    VObject (object_literal [("text", VString "impl Freeze for ExpectHandler"); ("synthetic", VBool true); ("types", VArray [])]);
    VObject (object_literal [("text", VString "impl Freeze for Payload"); ("synthetic", VBool true); ("types", VArray [])]);
    VObject (object_literal [("text", VString ("impl&lt;T, S, B, X, U&gt; Freeze for H1Service&lt;T, S, B, X, U&gt; <span class=" +:+ DQ +:+ "where fmt-newline" +:+ DQ +:+ ">where<br>&nbsp;&nbsp;&nbsp;&nbsp;S: Freeze,<br>&nbsp;&nbsp;&nbsp;&nbsp;U: Freeze,<br>&nbsp;&nbsp;&nbsp;&nbsp;X: Freeze,&nbsp;</span>")); ("synthetic", VBool true); ("types", VArray [])]);
    VObject (object_literal [("text", VString "impl&lt;T, S, B, X, U&gt; Freeze for H1ServiceHandler&lt;T, S, B, X, U&gt;"); ("synthetic", VBool true); ("types", VArray [])]);
    VObject (object_literal [("text", VString "impl&lt;T&gt; Freeze for OneRequest&lt;T&gt;"); ("synthetic", VBool true); ("types", VArray [])]);
    VObject (object_literal [("text", VString "impl&lt;T&gt; Freeze for UpgradeHandler&lt;T&gt;"); ("synthetic", VBool true); ("types", VArray [])]);
    VObject (object_literal [("text", VString "impl&lt;T, B&gt; !Freeze for SendResponse&lt;T, B&gt;"); ("synthetic", VBool true); ("types", VArray [])]);
    VObject (object_literal [("text", VString "impl&lt;T&gt; !Freeze for Message&lt;T&gt;"); ("synthetic", VBool true); ("types", VArray [])]);
    VObject (object_literal [("text", VString "impl Freeze for MessageType"); ("synthetic", VBool true); ("types", VArray [])]);
    VObject (object_literal [("text", VString "impl&lt;T, S, B&gt; !Freeze for Dispatcher&lt;T, S, B&gt;"); ("synthetic", VBool true); ("types", VArray [])]);
    VObject (object_literal [("text", VString ("impl&lt;T, S, B&gt; Freeze for H2Service&lt;T, S, B&gt; <span class=" +:+ DQ +:+ "where fmt-newline" +:+ DQ +:+ ">where<br>&nbsp;&nbsp;&nbsp;&nbsp;S: Freeze,&nbsp;</span>")); ("synthetic", VBool true); ("types", VArray [])]);
    VObject (object_literal [("text", VString "impl Freeze for Payload"); ("synthetic", VBool true); ("types", VArray [])]);
    VObject (object_literal [("text", VString "impl !Freeze for TestRequest"); ("synthetic", VBool true); ("types", VArray [])]);
    VObject (object_literal [("text", VString "impl Freeze for TestBuffer"); ("synthetic", VBool true); ("types", VArray [])]);
    VObject (object_literal [("text", VString "impl Freeze for Codec"); ("synthetic", VBool true); ("types", VArray [])]);
    VObject (object_literal [("text", VString ("impl&lt;S, T&gt; Freeze for Dispatcher&lt;S, T&gt; <span class=" +:+ DQ +:+ "where fmt-newline" +:+ DQ +:+ ">where<br>&nbsp;&nbsp;&nbsp;&nbsp;S: Freeze,<br>&nbsp;&nbsp;&nbsp;&nbsp;T: Freeze,<br>&nbsp;&nbsp;&nbsp;&nbsp;&lt;S as Service&gt;::Error: Freeze,&nbsp;</span>")); ("synthetic", VBool true); ("types", VArray [])]);
    VObject (object_literal [("text", VString "impl Freeze for Parser"); ("synthetic", VBool true); ("types", VArray [])]);
    VObject (object_literal [("text", VString "impl Freeze for CloseReason"); ("synthetic", VBool true); ("types", VArray [])]);
    VObject (object_literal [("text", VString "impl !Freeze for Frame"); ("synthetic", VBool true); ("types", VArray [])]);
    VObject (object_literal [("text", VString "impl !Freeze for Item"); ("synthetic", VBool true); ("types", VArray [])]);
    VObject (object_literal [("text", VString "impl !Freeze for Message"); ("synthetic", VBool true); ("types", VArray [])]);
    VObject (object_literal [("text", VString "impl Freeze for CloseCode"); ("synthetic", VBool true); ("types", VArray [])]);
    VObject (object_literal [("text", VString "impl Freeze for OpCode"); ("synthetic", VBool true); ("types", VArray [])]);
    VObject (object_literal [("text", VString "impl Freeze for ProtocolError"); ("synthetic", VBool true); ("types", VArray [])]);
    VObject (object_literal [("text", VString "impl Freeze for HandshakeError"); ("synthetic", VBool true); ("types", VArray [])])
  ].

(** Line 4: the array literal assigned to [implementors['actix_http_test']]. *)
Definition implementors_actix_http_test : value :=
  VArray [
    VObject (object_literal [("text", VString "impl Freeze for TestServer"); ("synthetic", VBool true); ("types", VArray [])])
  ].

(** Line 5: the array literal assigned to [implementors['actix_multipart']]. *)
Definition implementors_actix_multipart : value :=
  VArray [
    VObject (object_literal [("text", VString "impl !Freeze for Field"); ("synthetic", VBool true); ("types", VArray [])]);
    VObject (object_literal [("text", VString "impl !Freeze for Multipart"); ("synthetic", VBool true); ("types", VArray [])]);
    VObject (object_literal [("text", VString "impl Freeze for MultipartError"); ("synthetic", VBool true); ("types", VArray [])])
  ].

(** Line 6: the array literal assigned to [implementors['actix_web']]. *)
Definition implementors_actix_web : value :=
  VArray [
    VObject (object_literal [("text", VString ("impl&lt;T, B&gt; Freeze for App&lt;T, B&gt; <span class=" +:+ DQ +:+ "where fmt-newline" +:+ DQ +:+ ">where<br>&nbsp;&nbsp;&nbsp;&nbsp;T: Freeze,&nbsp;</span>")); ("synthetic", VBool true); ("types", VArray [])]);
    VObject (object_literal [("text", VString "impl Freeze for HttpRequest"); ("synthetic", VBool true); ("types", VArray [])]);
    VObject (object_literal [("text", VString ("impl&lt;T&gt; Freeze for Resource&lt;T&gt; <span class=" +:+ DQ +:+ "where fmt-newline" +:+ DQ +:+ ">where<br>&nbsp;&nbsp;&nbsp;&nbsp;T: Freeze,&nbsp;</span>")); ("synthetic", VBool true); ("types", VArray [])]);
    VObject (object_literal [("text", VString "impl Freeze for Route"); ("synthetic", VBool true); ("types", VArray [])]);
    VObject (object_literal [("text", VString ("impl&lt;T&gt; Freeze for Scope&lt;T&gt; <span class=" +:+ DQ +:+ "where fmt-newline" +:+ DQ +:+ ">where<br>&nbsp;&nbsp;&nbsp;&nbsp;T: Freeze,&nbsp;</span>")); ("synthetic", VBool true); ("types", VArray [])]);
    VObject (object_literal [("text", VString "impl&lt;F, I, S, B&gt; !Freeze for HttpServer&lt;F, I, S, B&gt;"); ("synthetic", VBool true); ("types", VArray [])]);
    VObject (object_literal [("text", VString ("impl&lt;A, B&gt; Freeze for Either&lt;A, B&gt; <span class=" +:+ DQ +:+ "where fmt-newline" +:+ DQ +:+ ">where<br>&nbsp;&nbsp;&nbsp;&nbsp;A: Freeze,<br>&nbsp;&nbsp;&nbsp;&nbsp;B: Freeze,&nbsp;</span>")); ("synthetic", VBool true); ("types", VArray [])]);
    VObject (object_literal [("text", VString "impl Freeze for AppService"); ("synthetic", VBool true); ("types", VArray [])]);
    VObject (object_literal [("text", VString "impl Freeze for AppConfig"); ("synthetic", VBool true); ("types", VArray [])]);
    VObject (object_literal [("text", VString "impl Freeze for ServiceConfig"); ("synthetic", VBool true); ("types", VArray [])]);
    VObject (object_literal [("text", VString "impl&lt;T:&nbsp;?Sized&gt; Freeze for Data&lt;T&gt;"); ("synthetic", VBool true); ("types", VArray [])]);
    VObject (object_literal [("text", VString "impl Freeze for UrlGenerationError"); ("synthetic", VBool true); ("types", VArray [])]);
    VObject (object_literal [("text", VString "impl Freeze for UrlencodedError"); ("synthetic", VBool true); ("types", VArray [])]);
    VObject (object_literal [("text", VString "impl Freeze for JsonPayloadError"); ("synthetic", VBool true); ("types", VArray [])]);
    VObject (object_literal [("text", VString "impl Freeze for PathError"); ("synthetic", VBool true); ("types", VArray [])]);
    VObject (object_literal [("text", VString "impl Freeze for QueryPayloadError"); ("synthetic", VBool true); ("types", VArray [])]);
    VObject (object_literal [("text", VString "impl Freeze for ReadlinesError"); ("synthetic", VBool true); ("types", VArray [])]);
    VObject (object_literal [("text", VString "impl Freeze for AnyGuard"); ("synthetic", VBool true); ("types", VArray [])]);
    VObject (object_literal [("text", VString "impl Freeze for AllGuard"); ("synthetic", VBool true); ("types", VArray [])]);
    VObject (object_literal [("text", VString "impl Freeze for ConnectionInfo"); ("synthetic", VBool true); ("types", VArray [])]);
    VObject (object_literal [("text", VString "impl Freeze for Compress"); ("synthetic", VBool true); ("types", VArray [])]);
    VObject (object_literal [("text", VString ("impl&lt;T&gt; Freeze for Condition&lt;T&gt; <span class=" +:+ DQ +:+ "where fmt-newline" +:+ DQ +:+ ">where<br>&nbsp;&nbsp;&nbsp;&nbsp;T: Freeze,&nbsp;</span>")); ("synthetic", VBool true); ("types", VArray [])]);
    VObject (object_literal [("text", VString "impl Freeze for DefaultHeaders"); ("synthetic", VBool true); ("types", VArray [])]);
    VObject (object_literal [("text", VString "impl Freeze for Logger"); ("synthetic", VBool true); ("types", VArray [])]);
    VObject (object_literal [("text", VString "impl&lt;B&gt; Freeze for ErrorHandlers&lt;B&gt;"); ("synthetic", VBool true); ("types", VArray [])]);
    VObject (object_literal [("text", VString "impl&lt;B&gt; !Freeze for ErrorHandlerResponse&lt;B&gt;"); ("synthetic", VBool true); ("types", VArray [])]);
    VObject (object_literal [("text", VString "impl Freeze for NormalizePath"); ("synthetic", VBool true); ("types", VArray [])]);
    VObject (object_literal [("text", VString "impl Freeze for TrailingSlash"); ("synthetic", VBool true); ("types", VArray [])]);
    VObject (object_literal [("text", VString ("impl&lt;T&gt; Freeze for ReqData&lt;T&gt; <span class=" +:+ DQ +:+ "where fmt-newline" +:+ DQ +:+ ">where<br>&nbsp;&nbsp;&nbsp;&nbsp;T: Freeze,&nbsp;</span>")); ("synthetic", VBool true); ("types", VArray [])]);
    VObject (object_literal [("text", VString "impl !Freeze for ResourceMap"); ("synthetic", VBool true); ("types", VArray [])]);
    VObject (object_literal [("text", VString "impl Freeze for ServiceRequest"); ("synthetic", VBool true); ("types", VArray [])]);
    VObject (object_literal [("text", VString "impl&lt;B&nbsp;=&nbsp;Body&gt; !Freeze for ServiceResponse&lt;B&gt;"); ("synthetic", VBool true); ("types", VArray [])]);
    VObject (object_literal [("text", VString "impl Freeze for WebService"); ("synthetic", VBool true); ("types", VArray [])]);
    VObject (object_literal [("text", VString "impl !Freeze for TestRequest"); ("synthetic", VBool true); ("types", VArray [])]);
    VObject (object_literal [("text", VString "impl Freeze for TestServerConfig"); ("synthetic", VBool true); ("types", VArray [])]);
    VObject (object_literal [("text", VString "impl Freeze for TestServer"); ("synthetic", VBool true); ("types", VArray [])]);
    VObject (object_literal [("text", VString ("impl&lt;T&gt; Freeze for Form&lt;T&gt; <span class=" +:+ DQ +:+ "where fmt-newline" +:+ DQ +:+ ">where<br>&nbsp;&nbsp;&nbsp;&nbsp;T: Freeze,&nbsp;</span>")); ("synthetic", VBool true); ("types", VArray [])]);
    VObject (object_literal [("text", VString "impl Freeze for FormConfig"); ("synthetic", VBool true); ("types", VArray [])]);
    VObject (object_literal [("text", VString "impl&lt;U&gt; Freeze for UrlEncoded&lt;U&gt;"); ("synthetic", VBool true); ("types", VArray [])]);
    VObject (object_literal [("text", VString ("impl&lt;T&gt; Freeze for Json&lt;T&gt; <span class=" +:+ DQ +:+ "where fmt-newline" +:+ DQ +:+ ">where<br>&nbsp;&nbsp;&nbsp;&nbsp;T: Freeze,&nbsp;</span>")); ("synthetic", VBool true); ("types", VArray [])]);
    VObject (object_literal [("text", VString "impl Freeze for JsonConfig"); ("synthetic", VBool true); ("types", VArray [])]);
    VObject (object_literal [("text", VString "impl&lt;U&gt; Freeze for JsonBody&lt;U&gt;"); ("synthetic", VBool true); ("types", VArray [])]);
    VObject (object_literal [("text", VString ("impl&lt;T&gt; Freeze for Path&lt;T&gt; <span class=" +:+ DQ +:+ "where fmt-newline" +:+ DQ +:+ ">where<br>&nbsp;&nbsp;&nbsp;&nbsp;T: Freeze,&nbsp;</span>")); ("synthetic", VBool true); ("types", VArray [])]);
    VObject (object_literal [("text", VString "impl Freeze for PathConfig"); ("synthetic", VBool true); ("types", VArray [])]);
    VObject (object_literal [("text", VString "impl Freeze for Payload"); ("synthetic", VBool true); ("types", VArray [])]);
    VObject (object_literal [("text", VString "impl Freeze for PayloadConfig"); ("synthetic", VBool true); ("types", VArray [])]);
    VObject (object_literal [("text", VString ("impl&lt;T&gt; Freeze for Query&lt;T&gt; <span class=" +:+ DQ +:+ "where fmt-newline" +:+ DQ +:+ ">where<br>&nbsp;&nbsp;&nbsp;&nbsp;T: Freeze,&nbsp;</span>")); ("synthetic", VBool true); ("types", VArray [])]);
    VObject (object_literal [("text", VString "impl Freeze for QueryConfig"); ("synthetic", VBool true); ("types", VArray [])]);
    VObject (object_literal [("text", VString ("impl&lt;T&gt; Freeze for Readlines&lt;T&gt; <span class=" +:+ DQ +:+ "where fmt-newline" +:+ DQ +:+ ">where<br>&nbsp;&nbsp;&nbsp;&nbsp;&lt;T as HttpMessage&gt;::Stream: Freeze,&nbsp;</span>")); ("synthetic", VBool true); ("types", VArray [])])
  ].

(** Line 7: the array literal assigned to [implementors['actix_web_actors']]. *)
Definition implementors_actix_web_actors : value :=
  VArray [
    VObject (object_literal [("text", VString "impl&lt;A&gt; Freeze for HttpContext&lt;A&gt;"); ("synthetic", VBool true); ("types", VArray [])]);
    VObject (object_literal [("text", VString "impl&lt;A&gt; Freeze for WebsocketContext&lt;A&gt;"); ("synthetic", VBool true); ("types", VArray [])])
  ].

(** Line 8: the array literal assigned to [implementors['awc']]. *)
Definition implementors_awc : value :=
  VArray [
    VObject (object_literal [("text", VString "impl !Freeze for ClientBuilder"); ("synthetic", VBool true); ("types", VArray [])]);
    VObject (object_literal [("text", VString "impl Freeze for BoxedSocket"); ("synthetic", VBool true); ("types", VArray [])]);
    VObject (object_literal [("text", VString "impl Freeze for FrozenClientRequest"); ("synthetic", VBool true); ("types", VArray [])]);
    VObject (object_literal [("text", VString "impl Freeze for FrozenSendBuilder"); ("synthetic", VBool true); ("types", VArray [])]);
    VObject (object_literal [("text", VString "impl !Freeze for ClientRequest"); ("synthetic", VBool true); ("types", VArray [])]);
    VObject (object_literal [("text", VString "impl&lt;S&nbsp;=&nbsp;Pin&lt;Box&lt;dyn Stream&lt;Item = Result&lt;Bytes, PayloadError&gt;&gt; + 'static, Global&gt;&gt;&gt; !Freeze for ClientResponse&lt;S&gt;"); ("synthetic", VBool true); ("types", VArray [])]);
    VObject (object_literal [("text", VString ("impl&lt;S, U&gt; Freeze for JsonBody&lt;S, U&gt; <span class=" +:+ DQ +:+ "where fmt-newline" +:+ DQ +:+ ">where<br>&nbsp;&nbsp;&nbsp;&nbsp;S: Freeze,&nbsp;</span>")); ("synthetic", VBool true); ("types", VArray [])]);
    VObject (object_literal [("text", VString ("impl&lt;S&gt; Freeze for MessageBody&lt;S&gt; <span class=" +:+ DQ +:+ "where fmt-newline" +:+ DQ +:+ ">where<br>&nbsp;&nbsp;&nbsp;&nbsp;S: Freeze,&nbsp;</span>")); ("synthetic", VBool true); ("types", VArray [])]);
    VObject (object_literal [("text", VString "impl Freeze for Client"); ("synthetic", VBool true); ("types", VArray [])]);
    VObject (object_literal [("text", VString "impl Freeze for SendClientRequest"); ("synthetic", VBool true); ("types", VArray [])]);
    VObject (object_literal [("text", VString "impl !Freeze for WsClientError"); ("synthetic", VBool true); ("types", VArray [])]);
    VObject (object_literal [("text", VString "impl Freeze for JsonPayloadError"); ("synthetic", VBool true); ("types", VArray [])]);
    VObject (object_literal [("text", VString "impl !Freeze for TestResponse"); ("synthetic", VBool true); ("types", VArray [])]);
    VObject (object_literal [("text", VString "impl !Freeze for WebsocketsRequest"); ("synthetic", VBool true); ("types", VArray [])])
  ].
(** ** State, errors and effects *)

(** What the script does to the world outside its function scope. *)
Inductive event : Type :=
| Call (callee : nat) (args : list value)
| Assign (prop : string) (v : value).

Inductive error : Type :=
| TypeError
| Thrown (v : value).

Inductive result (A : Type) : Type :=
| Ok (a : A)
| Throw (e : error).
Arguments Ok {A} a.
Arguments Throw {A} e.

Record state : Type := State {
  (** [var implementors]: hoisted, so [None] (undefined) until line 1 ran *)
  local : option (gmap string value);
  (** own properties of the global [window] object *)
  window : gmap string value;
  (** effects so far, oldest first *)
  trace : list event
}.

Definition M (A : Type) : Type := state → result A * state.

#[global] Instance M_ret : MRet M := λ A a s, (Ok a, s).
#[global] Instance M_bind : MBind M := λ A B k m s,
  match m s with
  | (Ok a, s') => k a s'
  | (Throw e, s') => (Throw e, s')
  end.

Definition throw {A} (e : error) : M A := λ s, (Throw e, s).

(** The values an event passes on: the arguments of a call, the value
    assigned. *)
Definition payload (e : event) : list value :=
  match e with
  | Call _ args => args
  | Assign _ v => [v]
  end.

Definition handed_off (s : state) : list value :=
  concat (payload <$> trace s).

Definition is_call (e : event) : bool :=
  match e with Call _ _ => true | Assign _ _ => false end.

(** The behaviour of the callable host objects.  [host f args w] is the
    completion of calling function [f] with [args] when the properties of
    [window] are [w], together with the properties of [window] afterwards.
    An object argument is passed by reference and is not frozen:
    [object_after host f o w] is what the call leaves of the contents [o]
    of the object it received. *)
Record host_functions : Type := Host {
  outcome_of :> nat → list value → gmap string value → result unit * gmap string value;
  object_after : nat → gmap string value → gmap string value → gmap string value
}.

Section Script.

Variable host : host_functions.

(** [var implementors = {};] *)
Definition var_implementors : M unit :=
  λ s, (Ok (), State (Some ∅) (window s) (trace s)).

(** [implementors[k] = v;] *)
Definition set_implementors (k : string) (v : value) : M unit :=
  λ s, match local s with
       | Some o => (Ok (), State (Some (<[k := v]> o)) (window s) (trace s))
       | None => (Throw TypeError, s)
       end.

(** The expression [implementors]. *)
Definition read_implementors : M value :=
  λ s, (Ok (from_option VObject VUndefined (local s)), s).

(** The expression [window.k]. *)
Definition window_get (k : string) : M value :=
  λ s, (Ok (get (window s) k), s).

(** [window.k(implementors);]: the callee is read, then the argument is
    evaluated, then the callee must be callable.  The callee receives the
    object of the variable itself, so after the call the variable refers to
    the object as the callee left it. *)
Definition window_call (k : string) : M unit :=
  f ← window_get k;
  a ← read_implementors;
  match f with
  | VFunction c =>
      (λ s, let r := host c [a] (window s) in
            (r.1, State ((λ o, object_after host c o (window s)) <$> local s)
                        r.2 (trace s ++ [Call c [a]]))) : M unit
  | _ => throw TypeError
  end.

(** [window.k = rhs;] *)
Definition window_set (k : string) (rhs : M value) : M unit :=
  v ← rhs;
  ((λ s, (Ok (), State (local s) (<[k := v]> (window s)) (trace s ++ [Assign k v])))
   : M unit).

(** Lines 1-8. *)
Definition build : M unit :=
  var_implementors;;
  set_implementors "actix_files" implementors_actix_files;;
  set_implementors "actix_http" implementors_actix_http;;
  set_implementors "actix_http_test" implementors_actix_http_test;;
  set_implementors "actix_multipart" implementors_actix_multipart;;
  set_implementors "actix_web" implementors_actix_web;;
  set_implementors "actix_web_actors" implementors_actix_web_actors;;
  set_implementors "awc" implementors_awc.

(** Line 9. *)
Definition hand_off : M unit :=
  c ← window_get "register_implementors";
  if to_boolean c
  then window_call "register_implementors"
  else window_set "pending_implementors" read_implementors.

(** The body of the function expression. *)
Definition script : M unit := build;; hand_off.

(** The immediately invoked function, run when [window] has the
    properties [w]. *)
Definition run (w : gmap string value) : result unit * state :=
  script (State None w []).

End Script.

(** The object the local variable holds once line 8 has run. *)
Definition implementors : gmap string value :=
  <["awc" := implementors_awc]>
  (<["actix_web_actors" := implementors_actix_web_actors]>
  (<["actix_web" := implementors_actix_web]>
  (<["actix_multipart" := implementors_actix_multipart]>
  (<["actix_http_test" := implementors_actix_http_test]>
  (<["actix_http" := implementors_actix_http]>
  (<["actix_files" := implementors_actix_files]> ∅)))))).


(** ECMAScript [IsCallable]. *)
Definition callable (v : value) : bool :=
  match v with VFunction _ => true | _ => false end.

(** A host whose functions return at once and leave [window] and their
    argument alone. *)
Definition host_noop : host_functions :=
  Host (λ _ _ w, (Ok (), w)) (λ _ o _, o).

(** A host whose functions all throw a string, having changed nothing. *)
Definition host_throwing : host_functions :=
  Host (λ _ _ w, (Throw (Thrown (VString "boom")), w)) (λ _ o _, o).

(** A host whose functions remove the property [awc] from the object they
    are passed ([function(m) { delete m.awc; }]) and return. *)
Definition host_deleting_awc : host_functions :=
  Host (λ _ _ w, (Ok (), w)) (λ _ o _, delete "awc" o).

(** ** Reading the data

    The views through which the statements below look at the registered
    object: the fields of one implementor record, the signatures of one
    array of records, and substring search on signatures. *)

(** The three fields [text], [synthetic] and [types] of a record, when the
    value is an object that has them with a string, a boolean and an array. *)
Definition record_fields (r : value) : option (string * bool * list value) :=
  match r with
  | VObject o =>
      match o !! "text", o !! "synthetic", o !! "types" with
      | Some (VString t), Some (VBool b), Some (VArray tys) => Some (t, b, tys)
      | _, _, _ => None
      end
  | _ => None
  end.

Definition is_string (v : value) : bool :=
  match v with VString _ => true | _ => false end.

Definition is_object (v : value) : bool :=
  match v with VObject _ => true | _ => false end.

(** The elements of an array value (no elements for any other value). *)
Definition elements_of (v : value) : list value :=
  match v with VArray l => l | _ => [] end.

(** The [text] fields of the records of an array, in array order. *)
Definition texts (v : value) : list string :=
  omap (λ r, (λ f, f.1.1) <$> record_fields r) (elements_of v).

(** [contains needle hay]: [needle] occurs in [hay] (JavaScript's
    [hay.includes(needle)]). *)
Fixpoint contains (needle hay : string) : bool :=
  String.prefix needle hay ||
  match hay with
  | EmptyString => false
  | String _ rest => contains needle rest
  end.

(** The crate names of lines 2-8, in source order. *)
Definition crates : list string :=
  ["actix_files"; "actix_http"; "actix_http_test"; "actix_multipart";
   "actix_web"; "actix_web_actors"; "awc"].

(** The signatures that occur more than once in the [actix_http] array. *)
Definition repeated_in_actix_http : list string :=
  ["impl Freeze for Protocol"; "impl Freeze for Codec"; "impl Freeze for Payload"].

(** The number of times [t] occurs in [l]. *)
Definition occurrences (t : string) (l : list string) : nat :=
  length (filter (λ x, x = t) l).

(** An implementor record: an object with a [text] string that names the
    trait, a [synthetic] boolean and a [types] array of strings. *)
Definition has_three_fields (r : value) : bool :=
  match record_fields r with
  | Some (t, _, tys) => contains "Freeze for" t && forallb is_string tys
  | None => false
  end.

(** A record of a compiler-derived ([synthetic]) implementation without
    generic types whose signature names the [Freeze] trait, positively or
    negated. *)
Definition synthetic_freeze_record (r : value) : bool :=
  match record_fields r with
  | Some (t, true, []) => contains "Freeze for" t || contains "!Freeze for" t
  | _ => false
  end.

(** [f] holds of every element of the array [v]; false when [v] is no
    array. *)
Definition array_forallb (f : value → bool) (v : value) : bool :=
  match v with VArray l => forallb f l | _ => false end.

(** A [window] whose only own property is [register_implementors], with
    value [v]. *)
Definition window_with (v : value) : gmap string value :=
  {["register_implementors" := v]}.

(** A [window] without own properties. *)
Definition window_empty : gmap string value := ∅.

(** The opening tag of a where-clause, as the signatures carry it. *)
Definition where_open : string :=
  "<span class=" +:+ DQ +:+ "where fmt-newline" +:+ DQ +:+ ">".

(** [suffix_of suf s]: [s] ends with [suf] (JavaScript's
    [s.endsWith(suf)]). *)
Fixpoint suffix_of (suf s : string) : bool :=
  String.eqb suf s ||
  match s with
  | EmptyString => false
  | String _ rest => suffix_of suf rest
  end.

(** The names of the own properties of a record object. *)
Definition record_keys (r : value) : option (gset string) :=
  match r with VObject o => Some (dom o) | _ => None end.

(** A record with the properties [text], [synthetic] and [types] and no
    other. *)
Definition has_exactly_three_keys (r : value) : bool :=
  match record_keys r with
  | Some ks => bool_decide (ks = {["text"; "synthetic"; "types"]})
  | None => false
  end.

(** A signature reads [impl ... Freeze for ...] or [impl ... !Freeze for ...],
    and not both. *)
Definition signature_classified (r : value) : bool :=
  match record_fields r with
  | Some (t, _, _) =>
      String.prefix "impl" t &&
      xorb (contains " Freeze for " t) (contains "!Freeze for " t)
  | None => false
  end.

(** [before needle hay]: the part of [hay] in front of the first occurrence
    of [needle]; all of [hay] when [needle] does not occur. *)
Fixpoint before (needle hay : string) : string :=
  if String.prefix needle hay then EmptyString
  else match hay with
       | EmptyString => EmptyString
       | String c rest => String c (before needle rest)
       end.

(** No raw [<], no raw [>] and no double quote. *)
Definition markup_free (t : string) : bool :=
  negb (contains "<" t) && negb (contains ">" t) && negb (contains DQ t).

(** The only raw markup of a signature is a where-clause: the text in front
    of the clause is free of markup, the clause runs to the end of the
    signature and belongs to a positive implementation. *)
Definition signature_markup_ok (r : value) : bool :=
  match record_fields r with
  | Some (t, _, _) =>
      markup_free (before where_open t) &&
      (negb (contains where_open t) ||
       suffix_of "</span>" t && negb (contains "!Freeze for" t))
  | None => false
  end.

(** * Properties *)

Lemma build_spec s :
  build s = (Ok (), State (Some implementors) (window s) (trace s)).
Proof. reflexivity. Qed.

Lemma hand_off_falsy (host : host_functions) s :
  to_boolean (get (window s) "register_implementors") = false →
  hand_off host s =
    (Ok (), State (local s)
               (<["pending_implementors" := from_option VObject VUndefined (local s)]> (window s))
               (trace s ++ [Assign "pending_implementors" (from_option VObject VUndefined (local s))])).
Proof.
  intros Hc. unfold hand_off, window_get, mbind, M_bind. rewrite Hc. reflexivity.
Qed.

(** ** The hand-off, case by case *)


Lemma hand_off_function (host : host_functions) s c :
  get (window s) "register_implementors" = VFunction c →
  hand_off host s =
    let a := from_option VObject VUndefined (local s) in
    let r := host c [a] (window s) in
    (r.1, State ((λ o, object_after host c o (window s)) <$> local s)
                r.2 (trace s ++ [Call c [a]])).
Proof.
  intros Hc. unfold hand_off, window_call, window_get, read_implementors, mbind, M_bind.
  rewrite Hc. cbn [to_boolean]. cbv beta iota. rewrite Hc. reflexivity.
Qed.

Lemma hand_off_not_callable (host : host_functions) s :
  to_boolean (get (window s) "register_implementors") = true →
  callable (get (window s) "register_implementors") = false →
  hand_off host s = (Throw TypeError, s).
Proof.
  intros Ht Hc. unfold hand_off, window_call, window_get, mbind, M_bind.
  unfold read_implementors.
  rewrite Ht. cbv beta iota.
  by destruct (get (window s) "register_implementors").
Qed.

(** The script itself never writes to the object at the hand-off: the
    variable changes only through what a callee does to the object. *)
Lemma hand_off_local (host : host_functions) s :
  local (hand_off host s).2 =
    match get (window s) "register_implementors" with
    | VFunction c => (λ o, object_after host c o (window s)) <$> local s
    | _ => local s
    end.
Proof.
  destruct (to_boolean (get (window s) "register_implementors")) eqn:Ht.
  - destruct (callable (get (window s) "register_implementors")) eqn:Hc.
    + destruct (get (window s) "register_implementors") eqn:Hg; try discriminate.
      by rewrite (hand_off_function _ _ _ Hg).
    + rewrite hand_off_not_callable by done.
      by destruct (get (window s) "register_implementors").
  - rewrite hand_off_falsy by done.
    by destruct (get (window s) "register_implementors").
Qed.

Lemma run_unfold (host : host_functions) w :
  run host w = hand_off host (State (Some implementors) w []).
Proof. reflexivity. Qed.

Lemma run_falsy (host : host_functions) w :
  to_boolean (get w "register_implementors") = false →
  run host w =
    (Ok (), State (Some implementors)
               (<["pending_implementors" := VObject implementors]> w)
               [Assign "pending_implementors" (VObject implementors)]).
Proof. intros Hc. rewrite run_unfold. by rewrite hand_off_falsy. Qed.

Lemma run_function (host : host_functions) w c :
  get w "register_implementors" = VFunction c →
  run host w =
    ((host c [VObject implementors] w).1,
     State (Some (object_after host c implementors w))
           (host c [VObject implementors] w).2
           [Call c [VObject implementors]]).
Proof. intros Hc. rewrite run_unfold. by rewrite (hand_off_function _ _ c). Qed.

Lemma run_not_callable (host : host_functions) w :
  to_boolean (get w "register_implementors") = true →
  callable (get w "register_implementors") = false →
  run host w = (Throw TypeError, State (Some implementors) w []).
Proof. intros Ht Hc. rewrite run_unfold. by rewrite hand_off_not_callable. Qed.

(** The three cases are exhaustive. *)
Lemma run_cases (host : host_functions) w :
  (to_boolean (get w "register_implementors") = false ∧
   run host w =
     (Ok (), State (Some implementors)
                (<["pending_implementors" := VObject implementors]> w)
                [Assign "pending_implementors" (VObject implementors)])) ∨
  (∃ c, get w "register_implementors" = VFunction c ∧
   run host w =
     ((host c [VObject implementors] w).1,
      State (Some (object_after host c implementors w))
            (host c [VObject implementors] w).2
            [Call c [VObject implementors]])) ∨
  (to_boolean (get w "register_implementors") = true ∧
   callable (get w "register_implementors") = false ∧
   run host w = (Throw TypeError, State (Some implementors) w [])).
Proof.
  destruct (to_boolean (get w "register_implementors")) eqn:Ht.
  - destruct (callable (get w "register_implementors")) eqn:Hc.
    + right; left.
      destruct (get w "register_implementors") eqn:Hg; try discriminate.
      exists f. split; [done|]. by apply run_function.
    + right; right. split_and!; [done..|]. by apply run_not_callable.
  - left. split; [done|]. by apply run_falsy.
Qed.


(** Closes a decidable goal about the transcribed literals by
    evaluation. *)
Ltac by_evaluation := apply (bool_decide_unpack _); vm_compute; exact I.

(** ** The registered object as a map *)

Lemma implementors_Forall (P : string → value → Prop) :
  P "actix_files" implementors_actix_files →
  P "actix_http" implementors_actix_http →
  P "actix_http_test" implementors_actix_http_test →
  P "actix_multipart" implementors_actix_multipart →
  P "actix_web" implementors_actix_web →
  P "actix_web_actors" implementors_actix_web_actors →
  P "awc" implementors_awc →
  map_Forall P implementors.
Proof.
  intros. unfold implementors.
  repeat (apply map_Forall_insert_2; [assumption|]).
  apply map_Forall_empty.
Qed.

Lemma implementors_dom : dom implementors =@{gset string} list_to_set crates.
Proof.
  unfold implementors. rewrite !dom_insert_L, dom_empty_L.
  unfold crates. cbn [list_to_set foldr]. set_solver.
Qed.

Lemma array_forallb_Forall (P : value → Prop) (f : value → bool) v :
  (∀ r, f r = true → P r) →
  array_forallb f v = true →
  ∃ l, v = VArray l ∧ Forall P l.
Proof.
  intros Hf Hv. destruct v as [| | | | | |l| |]; try discriminate.
  exists l. split; [done|].
  apply Forall_forall. intros r Hr. apply Hf.
  cbn in Hv. rewrite forallb_forall in Hv. apply Hv. by apply list_elem_of_In.
Qed.

Lemma implementors_arrays (P : value → Prop) (f : value → bool) :
  (∀ r, f r = true → P r) →
  forallb (array_forallb f)
    [implementors_actix_files; implementors_actix_http;
     implementors_actix_http_test; implementors_actix_multipart;
     implementors_actix_web; implementors_actix_web_actors;
     implementors_awc] = true →
  map_Forall (λ _ v, ∃ l, v = VArray l ∧ Forall P l) implementors.
Proof.
  intros Hf Hall. cbn [forallb] in Hall.
  repeat (apply andb_prop in Hall as [? Hall]).
  apply implementors_Forall; by apply (array_forallb_Forall P f).
Qed.

Lemma implementors_lookup k v :
  implementors !! k = Some v →
  (k, v) ∈ [("actix_files", implementors_actix_files);
            ("actix_http", implementors_actix_http);
            ("actix_http_test", implementors_actix_http_test);
            ("actix_multipart", implementors_actix_multipart);
            ("actix_web", implementors_actix_web);
            ("actix_web_actors", implementors_actix_web_actors);
            ("awc", implementors_awc)].
Proof.
  revert k v. apply map_Forall_lookup, implementors_Forall;
    repeat first [apply list_elem_of_here | apply list_elem_of_further].
Qed.

Lemma handed_off_run (host : host_functions) w :
  Forall (λ v, v = VObject implementors) (handed_off (run host w).2).
Proof.
  destruct (run_cases host w) as [[_ ->]|[(c & _ & ->)|(_ & _ & ->)]];
    unfold handed_off; cbn; repeat constructor.
Qed.

(** ** Shape and content of the registered data *)

(** C4.  Whenever the evaluation hands something to the viewer, that is,
    when [window.register_implementors] is falsy (the value is stored) or
    callable (the value is passed), it hands over exactly one value, the
    object [implementors]; the keys of that object are exactly the seven
    crate names [actix_files], [actix_http], [actix_http_test],
    [actix_multipart], [actix_web], [actix_web_actors] and [awc]; and each
    key maps to an array whose elements are objects that read as
    implementor records. *)
Theorem handed_value_is_crate_map (host : host_functions) w :
  (to_boolean (get w "register_implementors") = false ∨
   callable (get w "register_implementors") = true) →
  handed_off (run host w).2 = [VObject implementors] ∧
  dom implementors =@{gset string} list_to_set crates ∧
  NoDup crates ∧ length crates = 7 ∧
  map_Forall
    (λ _ v, ∃ l, v = VArray l ∧
       Forall (λ r, is_object r = true ∧ is_Some (record_fields r)) l)
    implementors.
Proof.
  intros Hw. split_and!.
  - destruct (run_cases host w) as [[_ ->]|[(c & _ & ->)|(Ht & Hc & _)]];
      [reflexivity | reflexivity |].
    destruct Hw as [Hw|Hw]; congruence.
  - apply implementors_dom.
  - by_evaluation.
  - reflexivity.
  - apply (implementors_arrays _ (λ r, is_object r && has_three_fields r));
      [|vm_compute; reflexivity].
    intros r Hr. apply andb_prop in Hr as [Ho Hf]. split; [exact Ho|].
    unfold has_three_fields in Hf. by destruct (record_fields r).
Qed.

Lemma handed_value_is_crate_map_witness :
  handed_off (run host_noop window_empty).2 = [VObject implementors] ∧
  handed_off (run host_throwing (window_with (VFunction 1))).2
    = [VObject implementors].
Proof.
  split.
  - apply (handed_value_is_crate_map host_noop window_empty).
    left. reflexivity.
  - apply (handed_value_is_crate_map host_throwing (window_with (VFunction 1))).
    right. reflexivity.
Defined.

(** C5.  Every element of every crate's array is an implementor record: an
    object with a [text] field holding a string (the type signature, which
    names the trait as [Freeze for], plain or preceded by [!]), a
    [synthetic] field holding a boolean and a [types] field holding an
    array of strings. *)
Theorem every_record_has_three_fields :
  map_Forall
    (λ _ v, ∃ l, v = VArray l ∧
       Forall (λ r, ∃ t b tys, record_fields r = Some (t, b, tys) ∧
                               contains "Freeze for" t = true ∧
                               Forall (λ ty, is_string ty = true) tys) l)
    implementors.
Proof.
  apply (implementors_arrays _ has_three_fields);
    [|vm_compute; reflexivity].
  intros r Hr. unfold has_three_fields in Hr.
  destruct (record_fields r) as [[[t b] tys]|]; [|discriminate].
  apply andb_prop in Hr as [Ht Hr].
  exists t, b, tys. split_and!; [done..|].
  apply Forall_forall. intros ty Hty.
  rewrite forallb_forall in Hr. apply Hr. by apply list_elem_of_In.
Qed.

(** C9.  Every element of every crate's array has [synthetic] equal to
    [true], [types] equal to the empty array, and a [text] that contains
    [Freeze for] or contains [!Freeze for]. *)
Theorem every_record_synthetic_freeze :
  map_Forall
    (λ _ v, ∃ l, v = VArray l ∧
       Forall (λ r, ∃ t, record_fields r = Some (t, true, []) ∧
                         (contains "Freeze for" t = true ∨
                          contains "!Freeze for" t = true)) l)
    implementors.
Proof.
  apply (implementors_arrays _ synthetic_freeze_record);
    [|vm_compute; reflexivity].
  intros r Hr. unfold synthetic_freeze_record in Hr.
  destruct (record_fields r) as [[[t [|]] [|]]|]; try discriminate.
  exists t. split; [done|]. by apply orb_prop.
Qed.

(** C10.  The mapping has exactly the seven crate keys, and each of them
    maps to an array with at least one element. *)
Theorem every_crate_nonempty :
  dom implementors =@{gset string} list_to_set crates ∧
  length crates = 7 ∧
  Forall (λ k, ∃ r l, implementors !! k = Some (VArray (r :: l))) crates ∧
  map_Forall (λ _ v, ∃ r l, v = VArray (r :: l)) implementors.
Proof.
  split_and!.
  - apply implementors_dom.
  - reflexivity.
  - unfold crates, implementors.
    repeat (apply Forall_cons; split);
      [do 2 eexists; rewrite ?lookup_insert_ne by done;
       rewrite lookup_insert_eq; reflexivity .. | apply Forall_nil_2].
  - apply implementors_Forall; do 2 eexists; reflexivity.
Qed.

Example contains_positive : contains "Freeze for" "impl Freeze for Files" = true.
Proof. reflexivity. Qed.

Example contains_negated :
  contains "!Freeze for" "impl Freeze for Files" = false ∧
  contains "!Freeze for" "impl !Freeze for Field" = true.
Proof. split; reflexivity. Qed.

Example texts_actix_multipart :
  texts implementors_actix_multipart =
    ["impl !Freeze for Field"; "impl !Freeze for Multipart";
     "impl Freeze for MultipartError"].
Proof. reflexivity. Qed.

(** ** Uniqueness of signatures *)

(** C2, as stated, fails: the array of [actix_http] holds the signature
    [impl Freeze for Protocol] at positions 13 and 25 (counted from 0), so
    its signatures are not pairwise distinct. *)
Lemma actix_http_repeats_a_signature :
  implementors !! "actix_http" = Some implementors_actix_http ∧
  texts implementors_actix_http !! 13 = Some "impl Freeze for Protocol" ∧
  texts implementors_actix_http !! 25 = Some "impl Freeze for Protocol" ∧
  ¬ NoDup (texts implementors_actix_http).
Proof.
  split_and!.
  - unfold implementors. rewrite !lookup_insert_ne by done.
    apply lookup_insert_eq.
  - reflexivity.
  - reflexivity.
  - intros Hnd. apply (bool_decide_pack _) in Hnd. vm_compute in Hnd. exact Hnd.
Qed.

(** C2, amended.  For every crate key other than [actix_http] the
    signatures of the crate's records are pairwise distinct.  In the array
    of [actix_http] the three signatures [impl Freeze for Protocol],
    [impl Freeze for Codec] and [impl Freeze for Payload] occur twice each,
    and the remaining signatures are pairwise distinct.  (Every record
    contributes its signature: [texts] has as many entries as the array
    has elements.) *)
Theorem signatures_distinct_except_actix_http_repeats k v :
  implementors !! k = Some v →
  length (texts v) = length (elements_of v) ∧
  if decide (k = "actix_http")
  then NoDup (filter (λ t, t ∉ repeated_in_actix_http) (texts v)) ∧
       Forall (λ t, occurrences t (texts v) = 2) repeated_in_actix_http
  else NoDup (texts v).
Proof.
  intros Hk. apply implementors_lookup in Hk.
  repeat (apply elem_of_cons in Hk as [[= -> ->]|Hk]);
    [ .. | by apply elem_of_nil in Hk];
    (split; [reflexivity|]);
    (case_decide as Hd; [try discriminate Hd | try done]).
  all: by_evaluation.
Qed.

Lemma signatures_distinct_except_actix_http_repeats_witness :
  implementors !! "awc" = Some implementors_awc ∧
  NoDup (texts implementors_awc).
Proof.
  assert (H : implementors !! "awc" = Some implementors_awc)
    by (unfold implementors; apply lookup_insert_eq).
  split; [exact H|].
  exact (proj2 (signatures_distinct_except_actix_http_repeats "awc" implementors_awc H)).
Defined.

(** ** The hand-off *)

(** C1, as stated, fails.  [false] is a defined value of
    [window.register_implementors], yet the evaluation calls nothing and
    stores the object in [window.pending_implementors].  The number 1 is
    defined and truthy, yet the evaluation calls nothing either: the call
    expression throws a [TypeError]. *)
Lemma defined_is_not_always_called :
  window_with (VBool false) !! "register_implementors" = Some (VBool false) ∧
  run host_noop (window_with (VBool false)) =
    (Ok (), State (Some implementors)
               (<["pending_implementors" := VObject implementors]>
                  (window_with (VBool false)))
               [Assign "pending_implementors" (VObject implementors)]) ∧
  ¬ (∃ f, trace (run host_noop (window_with (VBool false))).2 =
            [Call f [VObject implementors]]) ∧
  window_with (VNumber 1) !! "register_implementors" = Some (VNumber 1) ∧
  run host_noop (window_with (VNumber 1)) =
    (Throw TypeError, State (Some implementors) (window_with (VNumber 1)) []) ∧
  ¬ (∃ f, trace (run host_noop (window_with (VNumber 1))).2 =
            [Call f [VObject implementors]]).
Proof.
  assert (Hfalse := run_falsy host_noop (window_with (VBool false)) eq_refl).
  assert (Hone := run_not_callable host_noop (window_with (VNumber 1))
                    eq_refl eq_refl).
  split_and!; [reflexivity | exact Hfalse | | reflexivity | exact Hone |].
  - rewrite Hfalse. intros [f Hf]. discriminate Hf.
  - rewrite Hone. intros [f Hf]. discriminate Hf.
Qed.

(** C1, amended.  When [window.register_implementors] holds a function,
    the evaluation calls that function exactly once, with the object
    [implementors] as its only argument; this call is the only effect of
    the script: [window] afterwards is as the function left it, and the
    evaluation completes as the call does. *)
Theorem register_implementors_called_once (host : host_functions) w f :
  w !! "register_implementors" = Some (VFunction f) →
  trace (run host w).2 = [Call f [VObject implementors]] ∧
  window (run host w).2 = (host f [VObject implementors] w).2 ∧
  (run host w).1 = (host f [VObject implementors] w).1.
Proof.
  intros Hw. rewrite (run_function host w f); [done|].
  unfold get. by rewrite Hw.
Qed.

Lemma register_implementors_called_once_witness :
  trace (run host_noop (window_with (VFunction 0))).2 =
    [Call 0 [VObject implementors]].
Proof.
  apply (register_implementors_called_once host_noop
           (window_with (VFunction 0)) 0).
  reflexivity.
Defined.

(** C3, as stated, fails: when [window.register_implementors] is the
    number 1 (truthy, not callable) the evaluation throws a [TypeError]
    having neither called anything nor assigned anything. *)
Lemma truthy_non_callable_writes_nothing :
  run host_noop (window_with (VNumber 1)) =
    (Throw TypeError, State (Some implementors) (window_with (VNumber 1)) []) ∧
  trace (run host_noop (window_with (VNumber 1))).2 = [] ∧
  window (run host_noop (window_with (VNumber 1))).2 !! "pending_implementors"
    = None.
Proof.
  assert (Hrun := run_not_callable host_noop (window_with (VNumber 1))
                    eq_refl eq_refl).
  rewrite Hrun. split_and!; reflexivity.
Qed.

(** C3, amended.  A single evaluation writes into at most one global
    registry slot, and which one is decided by
    [window.register_implementors]: when it is falsy the script assigns
    [window.pending_implementors] once and calls nothing; when it is a
    function the script calls it once and assigns nothing, [window]
    afterwards being as the function left it; when it is truthy but not
    callable the script throws a [TypeError] and writes nothing.  It never
    does both, and it changes nothing else of [window]. *)
Theorem one_registry_slot_written (host : host_functions) w :
  let c := get w "register_implementors" in
  let r := run host w in
  (to_boolean c = false ∧
   trace r.2 = [Assign "pending_implementors" (VObject implementors)] ∧
   window r.2 = <["pending_implementors" := VObject implementors]> w ∧
   r.1 = Ok ()) ∨
  (∃ f, c = VFunction f ∧
   trace r.2 = [Call f [VObject implementors]] ∧
   window r.2 = (host f [VObject implementors] w).2 ∧
   r.1 = (host f [VObject implementors] w).1) ∨
  (to_boolean c = true ∧ callable c = false ∧
   trace r.2 = [] ∧ window r.2 = w ∧ r.1 = Throw TypeError).
Proof.
  intros c r. subst c r.
  destruct (run_cases host w) as [[Hc ->]|[(f & Hf & ->)|(Ht & Hc & ->)]].
  - left. done.
  - right; left. exists f. done.
  - right; right. done.
Qed.

(** C8.  When [window.register_implementors] is absent, or present with a
    falsy value, the evaluation stores the object [implementors] in
    [window.pending_implementors], makes no call, and completes
    normally. *)
Theorem pending_implementors_when_not_registered (host : host_functions) w :
  (w !! "register_implementors" = None ∨
   ∃ v, w !! "register_implementors" = Some v ∧ to_boolean v = false) →
  window (run host w).2 !! "pending_implementors" = Some (VObject implementors) ∧
  trace (run host w).2 = [Assign "pending_implementors" (VObject implementors)] ∧
  Forall (λ e, is_call e = false) (trace (run host w).2) ∧
  (run host w).1 = Ok ().
Proof.
  intros Hw.
  assert (Hc : to_boolean (get w "register_implementors") = false).
  { unfold get. destruct Hw as [->|(v & -> & Hv)]; [reflexivity | exact Hv]. }
  rewrite (run_falsy host w Hc). cbn [fst snd window trace].
  split_and!; [apply lookup_insert_eq | reflexivity | | reflexivity].
  by repeat constructor.
Qed.

Lemma pending_implementors_when_not_registered_witness :
  window (run host_throwing window_empty).2 !! "pending_implementors"
    = Some (VObject implementors) ∧
  window (run host_noop (window_with (VString ""))).2 !! "pending_implementors"
    = Some (VObject implementors).
Proof.
  split.
  - apply (pending_implementors_when_not_registered host_throwing window_empty).
    left. reflexivity.
  - apply (pending_implementors_when_not_registered host_noop
             (window_with (VString ""))).
    right. exists (VString ""). split; reflexivity.
Defined.

(** ** Failure *)

(** C6, as stated, fails: with a [window] whose [register_implementors] is
    the number 1 the evaluation throws a [TypeError]. *)
Lemma truthy_non_callable_throws :
  (run host_noop (window_with (VNumber 1))).1 = Throw TypeError.
Proof.
  by rewrite (run_not_callable host_noop (window_with (VNumber 1))
                eq_refl eq_refl).
Qed.

(** C6, amended.  The evaluation runs to completion without throwing
    whenever [window.register_implementors] is absent or falsy, or is a
    function whose call returns normally.  Its only effect is then the one
    hand-off event: it reads no input and performs no other operation. *)
Theorem evaluation_completes (host : host_functions) w :
  (to_boolean (get w "register_implementors") = false ∨
   ∃ f, get w "register_implementors" = VFunction f ∧
        (host f [VObject implementors] w).1 = Ok ()) →
  (run host w).1 = Ok () ∧
  (trace (run host w).2 = [Assign "pending_implementors" (VObject implementors)] ∨
   ∃ f, trace (run host w).2 = [Call f [VObject implementors]]).
Proof.
  intros [Hc|(f & Hf & Hok)].
  - rewrite (run_falsy host w Hc). split; [reflexivity | by left].
  - rewrite (run_function host w f Hf). split; [exact Hok | right; by exists f].
Qed.

Lemma evaluation_completes_witness :
  (run host_noop window_empty).1 = Ok () ∧
  (run host_noop (window_with (VFunction 7))).1 = Ok ().
Proof.
  split.
  - apply (evaluation_completes host_noop window_empty). left. reflexivity.
  - apply (evaluation_completes host_noop (window_with (VFunction 7))).
    right. exists 7. split; reflexivity.
Defined.

(** The evaluation also throws when the registered function does. *)
Example throwing_host_propagates :
  (run host_throwing (window_with (VFunction 0))).1
    = Throw (Thrown (VString "boom")).
Proof.
  by rewrite (run_function host_throwing (window_with (VFunction 0)) 0 eq_refl).
Qed.

(** ** The data is a constant *)

(** C7, as stated, fails.  The object is not frozen and the call of line 9
    passes it by reference, so a registered function that deletes a
    property ([function(m) { delete m.awc; }]) mutates the mapping during
    the evaluation: afterwards the object the script built has lost its
    key [awc]. *)
Lemma registered_function_can_mutate_implementors :
  run host_deleting_awc (window_with (VFunction 0)) =
    (Ok (), State (Some (delete "awc" implementors))
               (window_with (VFunction 0))
               [Call 0 [VObject implementors]]) ∧
  implementors !! "awc" = Some implementors_awc ∧
  delete "awc" implementors !! "awc" = None ∧
  local (run host_deleting_awc (window_with (VFunction 0))).2
    ≠ Some implementors.
Proof.
  assert (Hrun := run_function host_deleting_awc (window_with (VFunction 0)) 0
                    eq_refl).
  assert (Hawc : implementors !! "awc" = Some implementors_awc)
    by (unfold implementors; apply lookup_insert_eq).
  split_and!; [exact Hrun | exact Hawc | apply lookup_delete_eq |].
  rewrite Hrun. cbn [snd local object_after host_deleting_awc].
  intros Heq. apply (inj Some) in Heq.
  assert (Hnone : delete "awc" implementors !! "awc" = None)
    by apply lookup_delete_eq.
  rewrite Heq, Hawc in Hnone. discriminate Hnone.
Qed.

(** C7, amended.  The object is built once, by lines 1-8, to a value that
    does not depend on the state the script starts in, and the script
    itself never writes to it afterwards: line 9 leaves the variable as it
    is unless it calls a function, and then the object is what the callee
    left of it.  At the hand-off the object is the constant: any value
    handed off or stored by one evaluation equals any value handed off or
    stored by another, whatever their environments, both being
    [implementors]. *)
Theorem implementors_is_constant (host1 host2 : host_functions) w1 w2 v1 v2 :
  v1 ∈ handed_off (run host1 w1).2 →
  v2 ∈ handed_off (run host2 w2).2 →
  v1 = v2 ∧ v1 = VObject implementors ∧
  (∀ s, local (build s).2 = Some implementors) ∧
  (∀ s, local (hand_off host1 s).2 =
          match get (window s) "register_implementors" with
          | VFunction c => (λ o, object_after host1 c o (window s)) <$> local s
          | _ => local s
          end) ∧
  (callable (get w1 "register_implementors") = false →
   local (run host1 w1).2 = Some implementors) ∧
  (∀ f, get w1 "register_implementors" = VFunction f →
        local (run host1 w1).2 = Some (object_after host1 f implementors w1)).
Proof.
  intros H1 H2.
  pose proof (handed_off_run host1 w1) as F1.
  pose proof (handed_off_run host2 w2) as F2.
  rewrite Forall_forall in F1, F2.
  rewrite (F1 _ H1), (F2 _ H2).
  split_and!; try reflexivity.
  - intros s. apply hand_off_local.
  - intros Hc. rewrite run_unfold, hand_off_local. cbn [window local].
    by destruct (get w1 "register_implementors").
  - intros f Hf. by rewrite (run_function host1 w1 f Hf).
Qed.

Lemma implementors_is_constant_witness :
  VObject implementors ∈ handed_off (run host_noop window_empty).2 ∧
  VObject implementors
    ∈ handed_off (run host_deleting_awc (window_with (VFunction 3))).2 ∧
  local (run host_noop window_empty).2 = Some implementors.
Proof.
  assert (H1 : VObject implementors ∈ handed_off (run host_noop window_empty).2).
  { rewrite (run_falsy host_noop window_empty eq_refl). apply list_elem_of_here. }
  assert (H2 : VObject implementors
                 ∈ handed_off (run host_deleting_awc (window_with (VFunction 3))).2).
  { rewrite (run_function host_deleting_awc (window_with (VFunction 3)) 3 eq_refl).
    apply list_elem_of_here. }
  split_and!; [exact H1 | exact H2 |].
  apply (implementors_is_constant host_noop host_deleting_awc window_empty
           (window_with (VFunction 3)) _ _ H1 H2).
  reflexivity.
Defined.

(** * Further properties of the script *)

(** ** Evaluating the file again *)

Lemma get_insert_ne (w : gmap string value) k k' v :
  k ≠ k' → get (<[k := v]> w) k' = get w k'.
Proof. intros Hne. unfold get. by rewrite lookup_insert_ne. Qed.

(** X1.  In an environment without a (truthy) [window.register_implementors]
    a second evaluation of the file changes nothing: it completes normally,
    makes the same single assignment, and leaves [window] exactly as the
    first evaluation left it. *)
Theorem reevaluation_is_idempotent (host : host_functions) w :
  to_boolean (get w "register_implementors") = false →
  (run host (window (run host w).2)).1 = Ok () ∧
  trace (run host (window (run host w).2)).2 = trace (run host w).2 ∧
  window (run host (window (run host w).2)).2 = window (run host w).2.
Proof.
  intros Hc. rewrite (run_falsy host w Hc). cbn [snd window trace].
  rewrite run_falsy by (by rewrite get_insert_ne).
  cbn [fst snd window trace]. split_and!; [done..|].
  apply insert_insert_eq.
Qed.

Lemma reevaluation_is_idempotent_witness :
  window (run host_noop (window (run host_noop window_empty).2)).2
    = window (run host_noop window_empty).2.
Proof.
  apply (reevaluation_is_idempotent host_noop window_empty). reflexivity.
Defined.

(** ** What the script leaves alone *)

(** X2.  The script itself writes no property of [window] other than
    [pending_implementors]: a property [k] that the registered function, if
    there is one, leaves alone has after the evaluation the value it had
    before.  In particular the local variable [implementors] does not leak
    into [window]. *)
Theorem other_window_properties_untouched (host : host_functions) w k :
  k ≠ "pending_implementors" →
  (∀ f, get w "register_implementors" = VFunction f →
        (host f [VObject implementors] w).2 !! k = w !! k) →
  window (run host w).2 !! k = w !! k.
Proof.
  intros Hk Hhost.
  destruct (run_cases host w) as [[_ ->]|[(f & Hf & ->)|(_ & _ & ->)]];
    cbn [snd window].
  - by apply lookup_insert_ne.
  - by apply Hhost.
  - reflexivity.
Qed.

Lemma other_window_properties_untouched_witness :
  window (run host_noop window_empty).2 !! "implementors" = None ∧
  window (run host_noop (window_with (VFunction 2))).2 !! "register_implementors"
    = Some (VFunction 2).
Proof.
  split.
  - apply (other_window_properties_untouched host_noop window_empty
             "implementors"); [discriminate|].
    intros f Hf. discriminate Hf.
  - apply (other_window_properties_untouched host_noop
             (window_with (VFunction 2)) "register_implementors");
      [discriminate|].
    intros f Hf. reflexivity.
Defined.

(** ** Where an exception can come from *)

(** X3.  When the evaluation throws, the exception is either the
    [TypeError] of calling a truthy value that is not callable, raised
    before anything was written, or the very exception the registered
    function threw, after the one call.  Nothing else in the script
    throws. *)
Theorem thrown_error_origin (host : host_functions) w e :
  (run host w).1 = Throw e →
  (e = TypeError ∧
   to_boolean (get w "register_implementors") = true ∧
   callable (get w "register_implementors") = false ∧
   trace (run host w).2 = [] ∧ window (run host w).2 = w) ∨
  (∃ f, get w "register_implementors" = VFunction f ∧
        (host f [VObject implementors] w).1 = Throw e ∧
        trace (run host w).2 = [Call f [VObject implementors]]).
Proof.
  destruct (run_cases host w) as [[_ ->]|[(f & Hf & ->)|(Ht & Hc & ->)]];
    cbn [fst snd trace window]; intros He.
  - discriminate He.
  - right. by exists f.
  - left. by injection He as <-.
Qed.

Lemma thrown_error_origin_witness :
  (run host_throwing (window_with (VFunction 0))).1
    = Throw (Thrown (VString "boom")) ∧
  ∃ f, get (window_with (VFunction 0)) "register_implementors" = VFunction f ∧
       (host_throwing f [VObject implementors] (window_with (VFunction 0))).1
         = Throw (Thrown (VString "boom")).
Proof.
  assert (H : (run host_throwing (window_with (VFunction 0))).1
              = Throw (Thrown (VString "boom")))
    by (by rewrite (run_function host_throwing (window_with (VFunction 0)) 0
                      eq_refl)).
  split; [exact H|].
  destruct (thrown_error_origin host_throwing (window_with (VFunction 0)) _ H)
    as [(_ & _ & Hc & _)|(f & Hf & Hthrow & _)].
  - discriminate Hc.
  - exists f. split; [exact Hf | exact Hthrow].
Defined.

(** ** What the evaluation depends on *)

(** X4.  The only property of [window] the script reads is
    [register_implementors].  Two environments that agree on it produce the
    same trace, whatever their other properties and whatever their host
    functions do; when the value is not callable they also complete the
    same way. *)
Theorem evaluation_reads_only_register_implementors (host1 host2 : host_functions) w1 w2 :
  get w1 "register_implementors" = get w2 "register_implementors" →
  trace (run host1 w1).2 = trace (run host2 w2).2 ∧
  (callable (get w1 "register_implementors") = false →
   (run host1 w1).1 = (run host2 w2).1).
Proof.
  intros Heq.
  destruct (run_cases host1 w1) as [[H1 ->]|[(f & H1 & ->)|(H1 & C1 & ->)]].
  - rewrite (run_falsy host2 w2) by (by rewrite <- Heq). done.
  - rewrite (run_function host2 w2 f) by (by rewrite <- Heq).
    split; [done|]. rewrite H1. discriminate.
  - rewrite (run_not_callable host2 w2) by (by rewrite <- Heq). done.
Qed.

Lemma evaluation_reads_only_register_implementors_witness :
  trace (run host_noop (window_with (VFunction 4))).2
    = trace (run host_throwing
               (<["pending_implementors" := VNull]> (window_with (VFunction 4)))).2.
Proof.
  apply (evaluation_reads_only_register_implementors host_noop host_throwing
           (window_with (VFunction 4))
           (<["pending_implementors" := VNull]> (window_with (VFunction 4)))).
  reflexivity.
Defined.

(** * Further invariants of the registered data *)

Example suffix_of_examples :
  suffix_of "</span>" "where<br>X: Freeze,&nbsp;</span>" = true ∧
  suffix_of "</span>" "impl Freeze for Files" = false.
Proof. split; reflexivity. Qed.

(** X5.  Every record of every crate's array has exactly the three
    properties [text], [synthetic] and [types], and no other. *)
Theorem every_record_has_exactly_three_keys :
  map_Forall
    (λ _ v, ∃ l, v = VArray l ∧
       Forall (λ r, ∃ o, r = VObject o ∧
                         dom o =@{gset string} {["text"; "synthetic"; "types"]}) l)
    implementors.
Proof.
  apply (implementors_arrays _ has_exactly_three_keys);
    [|vm_compute; reflexivity].
  intros r Hr. unfold has_exactly_three_keys in Hr.
  destruct r as [| | | | | | |o|]; try discriminate Hr.
  exists o. split; [reflexivity|].
  cbn [record_keys] in Hr. by apply bool_decide_eq_true in Hr.
Qed.

(** X6.  Every signature starts with [impl] and states the trait exactly
    one way: it contains either the plain [ Freeze for ] or the negated
    [!Freeze for ], never both and never neither, so the status of a record
    can be read off its text without ambiguity. *)
Theorem every_signature_classified :
  map_Forall
    (λ _ v, ∃ l, v = VArray l ∧
       Forall (λ r, ∃ t b tys, record_fields r = Some (t, b, tys) ∧
                 String.prefix "impl" t = true ∧
                 contains " Freeze for " t = negb (contains "!Freeze for " t)) l)
    implementors.
Proof.
  apply (implementors_arrays _ signature_classified);
    [|vm_compute; reflexivity].
  intros r Hr. unfold signature_classified in Hr.
  destruct (record_fields r) as [[[t b] tys]|]; [|discriminate].
  apply andb_prop in Hr as [Hp Hx].
  exists t, b, tys. split_and!; [done..|].
  by destruct (contains " Freeze for " t), (contains "!Freeze for " t).
Qed.

Example before_examples :
  before "<b>" "a&lt;T&gt; <b>x</b>" = "a&lt;T&gt; " ∧
  before "<b>" "no tag" = "no tag" ∧
  markup_free "a&lt;T&gt; " = true ∧ markup_free "a<T> " = false.
Proof. split_and!; reflexivity. Qed.

(** X7.  The signatures are HTML-escaped outside their where-clause: in
    every signature the text in front of the where-clause span (the whole
    text when there is no such span) contains no raw [<], no raw [>] and no
    double quote.  A signature with a where-clause ends with the closing
    [</span>] of that clause and is a positive implementation: no negated
    implementation carries bounds. *)
Theorem every_signature_markup :
  map_Forall
    (λ _ v, ∃ l, v = VArray l ∧
       Forall (λ r, ∃ t b tys, record_fields r = Some (t, b, tys) ∧
                 contains "<" (before where_open t) = false ∧
                 contains ">" (before where_open t) = false ∧
                 contains DQ (before where_open t) = false ∧
                 (contains where_open t = false → before where_open t = t) ∧
                 (contains where_open t = true →
                  suffix_of "</span>" t = true ∧
                  contains "!Freeze for" t = false)) l)
    implementors.
Proof.
  apply (implementors_arrays _
           (λ r, signature_markup_ok r &&
                 match record_fields r with
                 | Some (t, _, _) =>
                     contains where_open t ||
                     String.eqb (before where_open t) t
                 | None => false
                 end));
    [|vm_compute; reflexivity].
  intros r Hr. apply andb_prop in Hr as [Hr Hb].
  unfold signature_markup_ok, markup_free in Hr.
  destruct (record_fields r) as [[[t b] tys]|]; [|discriminate].
  exists t, b, tys.
  apply andb_prop in Hr as [Hfree Hw].
  apply andb_prop in Hfree as [Hfree Hq].
  apply andb_prop in Hfree as [Hl Hg].
  split_and!; [reflexivity | by apply negb_true_iff .. | |].
  - intros Hno. rewrite Hno in Hb. by apply String.eqb_eq in Hb.
  - intros Hyes. rewrite Hyes in Hw. cbn in Hw.
    apply andb_prop in Hw as [Hs Hn]. split; [exact Hs|].
    by apply negb_true_iff.
Qed.
